(** * USP message model (uspmessages.h)

    The header uspmessages.h declares plain value types: three enumerations,
    a base struct [JsonMsg] with the raw text of a message, the structs that
    derive from it, and two structs for binary payloads.  Each struct is a
    record here, a base class is the first field of the record of the derived
    struct, and each C++ constructor is a function that builds the record. *)

From Stdlib Require Import ZArith List String Ascii Lia.
From stdpp Require Import base decidable countable gmap list strings.

Local Open Scope Z_scope.

(** ** Scalar types *)

(** [typedef uint64_t OffsetType; typedef uint64_t DurationType;]
    A value of type uint64_t is an integer in [0, 2^64).  A field of that
    type is a [Z], and [to_uint64] is the conversion C++ applies whenever a
    value initialises or is assigned to such an object (reduction modulo
    2^64). *)
Definition uint64_modulus : Z := 2 ^ 64.

Definition to_uint64 (z : Z) : Z := z mod uint64_modulus.

Definition is_uint64 (z : Z) : Prop := 0 <= z < uint64_modulus.

Definition OffsetType : Type := Z.
Definition DurationType : Type := Z.

(** [std::wstring]: a sequence of wide characters, each given by its code.
    [std::string] is a [string]. *)
Abbreviation wchar_t := N.
Abbreviation wstring := (list wchar_t).

(** The wide string literal [L"..."] of an ASCII text. *)
Definition L (s : string) : wstring :=
  map N_of_ascii (list_ascii_of_string s).

(** [const uint8_t*]: an address, [nullptr] is 0. *)
Definition pointer : Type := N.
Definition nullptr : pointer := 0%N.

(** ** Enumerations *)

Module RecognitionStatus.
Inductive t : Set :=
| Success
| NoMatch
| InitialSilenceTimeout
| InitialBabbleTimeout
| Error
| EndOfDictation
| TooManyRequests
| BadRequest
| Forbidden
| ServiceUnavailable
| InvalidMessage.

(** The underlying [int] of each enumerator. *)
Definition to_int (s : t) : Z :=
  match s with
  | Success => 0
  | NoMatch => 1
  | InitialSilenceTimeout => 2
  | InitialBabbleTimeout => 3
  | Error => 4
  | EndOfDictation => 5
  | TooManyRequests => 6
  | BadRequest => 7
  | Forbidden => 8
  | ServiceUnavailable => 9
  | InvalidMessage => 10
  end.

(** The identifier of each enumerator. *)
Definition name (s : t) : string :=
  match s with
  | Success => "Success"
  | NoMatch => "NoMatch"
  | InitialSilenceTimeout => "InitialSilenceTimeout"
  | InitialBabbleTimeout => "InitialBabbleTimeout"
  | Error => "Error"
  | EndOfDictation => "EndOfDictation"
  | TooManyRequests => "TooManyRequests"
  | BadRequest => "BadRequest"
  | Forbidden => "Forbidden"
  | ServiceUnavailable => "ServiceUnavailable"
  | InvalidMessage => "InvalidMessage"
  end.

Definition all : list t :=
  [Success; NoMatch; InitialSilenceTimeout; InitialBabbleTimeout; Error;
   EndOfDictation; TooManyRequests; BadRequest; Forbidden;
   ServiceUnavailable; InvalidMessage].

#[global] Instance eq_dec : EqDecision t.
Proof. solve_decision. Defined.

(** The enumerator with a given underlying value, if one has it. *)
Definition of_int (z : Z) : option t :=
  find (fun s => bool_decide (to_int s = z)) all.
End RecognitionStatus.

Module TranslationStatus.
Inductive t : Set :=
| Success
| Error
| InvalidMessage.

Definition to_int (s : t) : Z :=
  match s with
  | Success => 0
  | Error => 1
  | InvalidMessage => 2
  end.

Definition name (s : t) : string :=
  match s with
  | Success => "Success"
  | Error => "Error"
  | InvalidMessage => "InvalidMessage"
  end.

Definition all : list t := [Success; Error; InvalidMessage].

#[global] Instance eq_dec : EqDecision t.
Proof. solve_decision. Defined.

(** The enumerator with a given underlying value, if one has it. *)
Definition of_int (z : Z) : option t :=
  find (fun s => bool_decide (to_int s = z)) all.
End TranslationStatus.

Module ErrorCode.
Inductive t : Set :=
| AuthenticationError
| BadRequest
| TooManyRequests
| Forbidden
| ConnectionError
| ServiceUnavailable
| ServiceError
| RuntimeError.

(** [AuthenticationError = 1], the others count on from it. *)
Definition to_int (e : t) : Z :=
  match e with
  | AuthenticationError => 1
  | BadRequest => 2
  | TooManyRequests => 3
  | Forbidden => 4
  | ConnectionError => 5
  | ServiceUnavailable => 6
  | ServiceError => 7
  | RuntimeError => 8
  end.

Definition name (e : t) : string :=
  match e with
  | AuthenticationError => "AuthenticationError"
  | BadRequest => "BadRequest"
  | TooManyRequests => "TooManyRequests"
  | Forbidden => "Forbidden"
  | ConnectionError => "ConnectionError"
  | ServiceUnavailable => "ServiceUnavailable"
  | ServiceError => "ServiceError"
  | RuntimeError => "RuntimeError"
  end.

Definition all : list t :=
  [AuthenticationError; BadRequest; TooManyRequests; Forbidden;
   ConnectionError; ServiceUnavailable; ServiceError; RuntimeError].

#[global] Instance eq_dec : EqDecision t.
Proof. solve_decision. Defined.

(** The enumerator with a given identifier, if the enumeration has one. *)
Definition of_name (n : string) : option t :=
  find (fun e => bool_decide (name e = n)) all.

(** The enumerator with a given underlying value, if one has it. *)
Definition of_int (z : Z) : option t :=
  find (fun e => bool_decide (to_int e = z)) all.
End ErrorCode.

(** ** The text-bodied messages *)

Module JsonMsg.
Record t : Type := Build { json : wstring }.

(** [JsonMsg() = default]: the string member is empty. *)
Definition default : t := {| json := [] |}.

(** [JsonMsg(std::wstring&& content) : json(std::move(content))]
    (protected: for the derived structs). *)
Definition ctor (content : wstring) : t := {| json := content |}.

(** [JsonMsg(const JsonMsg&) = default]. *)
Definition copy (m : t) : t := {| json := json m |}.
End JsonMsg.

(** The capability of a struct that derives, directly or not, from
    [JsonMsg]: the conversion of a value to its [JsonMsg] base. *)
Class IsJsonMsg (T : Type) : Type := as_JsonMsg : T -> JsonMsg.t.
#[global] Hint Mode IsJsonMsg ! : typeclass_instances.

Definition json_of {T : Type} `{IsJsonMsg T} (m : T) : wstring :=
  JsonMsg.json (as_JsonMsg m).

#[global] Instance JsonMsg_IsJsonMsg : IsJsonMsg JsonMsg.t := fun m => m.

Module SpeechStartDetectedMsg.
Record t : Type := Build { base : JsonMsg.t; offset : OffsetType }.

Definition ctor (content : wstring) (offset : Z) : t :=
  {| base := JsonMsg.ctor content; offset := to_uint64 offset |}.

#[global] Instance is_json : IsJsonMsg t := base.
End SpeechStartDetectedMsg.

Module SpeechEndDetectedMsg.
Record t : Type := Build { base : JsonMsg.t; offset : OffsetType }.

Definition ctor (content : wstring) (offset : Z) : t :=
  {| base := JsonMsg.ctor content; offset := to_uint64 offset |}.

#[global] Instance is_json : IsJsonMsg t := base.
End SpeechEndDetectedMsg.

Module TurnStartMsg.
Record t : Type := Build { base : JsonMsg.t; contextServiceTag : string }.

Definition ctor (content : wstring) (tag : string) : t :=
  {| base := JsonMsg.ctor content; contextServiceTag := tag |}.

#[global] Instance is_json : IsJsonMsg t := base.
End TurnStartMsg.

Module TurnEndMsg.
Record t : Type := Build { base : JsonMsg.t }.

(** [TurnEndMsg() : JsonMsg(std::wstring())]. *)
Definition ctor : t := {| base := JsonMsg.ctor [] |}.

(** The implicit copy constructor. *)
Definition copy (m : t) : t := {| base := JsonMsg.copy (base m) |}.

#[global] Instance is_json : IsJsonMsg t := base.

(** The values that construction yields: by the constructor, or by
    copying such a value. *)
Inductive constructed : t -> Prop :=
| constructed_ctor : constructed ctor
| constructed_copy (m : t) : constructed m -> constructed (copy m).
End TurnEndMsg.

Module SpeechMsg.
Record t : Type :=
  Build { base : JsonMsg.t; offset : OffsetType; duration : DurationType }.

(** [SpeechMsg() = default], with [offset{ 0 }] and [duration{ 0 }]. *)
Definition default : t :=
  {| base := JsonMsg.default; offset := 0; duration := 0 |}.

Definition ctor (content : wstring) (offset duration : Z) : t :=
  {| base := JsonMsg.ctor content;
     offset := to_uint64 offset;
     duration := to_uint64 duration |}.

#[global] Instance is_json : IsJsonMsg t := base.
End SpeechMsg.

Module SpeechHypothesisMsg.
Record t : Type := Build { base : SpeechMsg.t; text : wstring }.

Definition ctor (content : wstring) (offset duration : Z)
    (text : wstring) : t :=
  {| base := SpeechMsg.ctor content offset duration; text := text |}.

Definition offset (m : t) : OffsetType := SpeechMsg.offset (base m).
Definition duration (m : t) : DurationType := SpeechMsg.duration (base m).

#[global] Instance is_json : IsJsonMsg t := fun m => as_JsonMsg (base m).
End SpeechHypothesisMsg.

Module SpeechFragmentMsg.
Record t : Type := Build { base : SpeechMsg.t; text : wstring }.

Definition ctor (content : wstring) (offset duration : Z)
    (text : wstring) : t :=
  {| base := SpeechMsg.ctor content offset duration; text := text |}.

Definition offset (m : t) : OffsetType := SpeechMsg.offset (base m).
Definition duration (m : t) : DurationType := SpeechMsg.duration (base m).

#[global] Instance is_json : IsJsonMsg t := fun m => as_JsonMsg (base m).
End SpeechFragmentMsg.

Module SpeechPhraseMsg.
Record t : Type :=
  Build { base : SpeechMsg.t;
          recognitionStatus : RecognitionStatus.t;
          displayText : wstring }.

(** [SpeechPhraseMsg() = default], with
    [recognitionStatus { RecognitionStatus::Error }]. *)
Definition default : t :=
  {| base := SpeechMsg.default;
     recognitionStatus := RecognitionStatus.Error;
     displayText := [] |}.

Definition ctor (content : wstring) (offset duration : Z)
    (status : RecognitionStatus.t) (text : wstring) : t :=
  {| base := SpeechMsg.ctor content offset duration;
     recognitionStatus := status;
     displayText := text |}.

Definition offset (m : t) : OffsetType := SpeechMsg.offset (base m).
Definition duration (m : t) : DurationType := SpeechMsg.duration (base m).

(** Assignment to the public members other than the status, as a decoder
    does for the fields it finds. *)
Definition set_json (m : t) (content : wstring) : t :=
  {| base := {| SpeechMsg.base := JsonMsg.ctor content;
                SpeechMsg.offset := offset m;
                SpeechMsg.duration := duration m |};
     recognitionStatus := recognitionStatus m;
     displayText := displayText m |}.

Definition set_offset (m : t) (o : Z) : t :=
  {| base := {| SpeechMsg.base := SpeechMsg.base (base m);
                SpeechMsg.offset := to_uint64 o;
                SpeechMsg.duration := duration m |};
     recognitionStatus := recognitionStatus m;
     displayText := displayText m |}.

Definition set_duration (m : t) (d : Z) : t :=
  {| base := {| SpeechMsg.base := SpeechMsg.base (base m);
                SpeechMsg.offset := offset m;
                SpeechMsg.duration := to_uint64 d |};
     recognitionStatus := recognitionStatus m;
     displayText := displayText m |}.

Definition set_displayText (m : t) (text : wstring) : t :=
  {| base := base m;
     recognitionStatus := recognitionStatus m;
     displayText := text |}.

#[global] Instance is_json : IsJsonMsg t := fun m => as_JsonMsg (base m).
End SpeechPhraseMsg.

(** ** Translation results and messages *)

Module TranslationResult.
(** An aggregate: [translationStatus { TranslationStatus::Error }], the
    failure reason, and [std::map<std::wstring, std::wstring> translations]
    from target language to translated text. *)
Record t : Type :=
  Build { translationStatus : TranslationStatus.t;
          failureReason : wstring;
          translations : gmap wstring wstring }.

(** [TranslationResult r;]: the default member initialisers. *)
Definition default : t :=
  {| translationStatus := TranslationStatus.Error;
     failureReason := [];
     translations := ∅ |}.

(** Assignment to the public members. *)
Definition set_translationStatus (r : t) (s : TranslationStatus.t) : t :=
  {| translationStatus := s;
     failureReason := failureReason r;
     translations := translations r |}.

Definition set_failureReason (r : t) (reason : wstring) : t :=
  {| translationStatus := translationStatus r;
     failureReason := reason;
     translations := translations r |}.

Definition set_translations (r : t) (m : gmap wstring wstring) : t :=
  {| translationStatus := translationStatus r;
     failureReason := failureReason r;
     translations := m |}.

(** [r.translations[lang] = text]. *)
Definition add_translation (r : t) (lang text : wstring) : t :=
  set_translations r (<[lang := text]> (translations r)).

(** The implicit copy constructor. *)
Definition copy (r : t) : t :=
  {| translationStatus := translationStatus r;
     failureReason := failureReason r;
     translations := translations r |}.
End TranslationResult.

Module TranslationHypothesisMsg.
Record t : Type :=
  Build { base : SpeechHypothesisMsg.t; translation : TranslationResult.t }.

(** [translation(translation)]: the member is a copy of the argument. *)
Definition ctor (content : wstring) (offset duration : Z) (text : wstring)
    (translation : TranslationResult.t) : t :=
  {| base := SpeechHypothesisMsg.ctor content offset duration text;
     translation := TranslationResult.copy translation |}.

#[global] Instance is_json : IsJsonMsg t := fun m => as_JsonMsg (base m).

Definition offset (m : t) : OffsetType := SpeechHypothesisMsg.offset (base m).
Definition duration (m : t) : DurationType :=
  SpeechHypothesisMsg.duration (base m).
End TranslationHypothesisMsg.

Module TranslationPhraseMsg.
(** [RecognitionStatus recognitionStatus;] has no default member
    initialiser, and the struct has this one constructor. *)
Record t : Type :=
  Build { base : TranslationHypothesisMsg.t;
          recognitionStatus : RecognitionStatus.t }.

Definition ctor (content : wstring) (offset duration : Z) (text : wstring)
    (translation : TranslationResult.t) (status : RecognitionStatus.t) : t :=
  {| base :=
       TranslationHypothesisMsg.ctor content offset duration text translation;
     recognitionStatus := status |}.

Definition translation (m : t) : TranslationResult.t :=
  TranslationHypothesisMsg.translation (base m).

#[global] Instance is_json : IsJsonMsg t := fun m => as_JsonMsg (base m).

Definition offset (m : t) : OffsetType :=
  TranslationHypothesisMsg.offset (base m).
Definition duration (m : t) : DurationType :=
  TranslationHypothesisMsg.duration (base m).
End TranslationPhraseMsg.

(** ** The binary-bodied messages *)

Module AudioOutputChunkMsg.
Record t : Type :=
  Build { streamId : Z; audioBuffer : pointer; audioLength : Z }.

Definition default : t :=
  {| streamId := -1; audioBuffer := nullptr; audioLength := 0 |}.
End AudioOutputChunkMsg.

Module UserMsg.
Record t : Type :=
  Build { path : string; contentType : string; buffer : pointer; size : Z }.
End UserMsg.

(** ** The struct declarations of the header, as data

    Which struct derives from which, and the members each one declares.
    The inheritance claims are stated over this table. *)

Module Decl.
Inductive Struct : Set :=
| JsonMsg
| SpeechStartDetectedMsg
| SpeechEndDetectedMsg
| TurnStartMsg
| TurnEndMsg
| SpeechMsg
| SpeechHypothesisMsg
| SpeechFragmentMsg
| SpeechPhraseMsg
| TranslationResult
| TranslationHypothesisMsg
| TranslationPhraseMsg
| AudioOutputChunkMsg
| UserMsg.

#[global] Instance Struct_eq_dec : EqDecision Struct.
Proof. solve_decision. Defined.

Inductive CType : Set :=
| Twstring
| Tstring
| Tuint64
| Tint
| Tsize_t
| Tconst_uint8_ptr
| TRecognitionStatus
| TTranslationStatus
| TTranslationResult
| Tmap_wstring_wstring.

#[global] Instance CType_eq_dec : EqDecision CType.
Proof. solve_decision. Defined.

(** The base class named after the colon of each struct head. *)
Definition direct_base (s : Struct) : option Struct :=
  match s with
  | JsonMsg => None
  | SpeechStartDetectedMsg => Some JsonMsg
  | SpeechEndDetectedMsg => Some JsonMsg
  | TurnStartMsg => Some JsonMsg
  | TurnEndMsg => Some JsonMsg
  | SpeechMsg => Some JsonMsg
  | SpeechHypothesisMsg => Some SpeechMsg
  | SpeechFragmentMsg => Some SpeechMsg
  | SpeechPhraseMsg => Some SpeechMsg
  | TranslationResult => None
  | TranslationHypothesisMsg => Some SpeechHypothesisMsg
  | TranslationPhraseMsg => Some TranslationHypothesisMsg
  | AudioOutputChunkMsg => None
  | UserMsg => None
  end.

(** The data members each struct declares itself. *)
Definition own_fields (s : Struct) : list (string * CType) :=
  match s with
  | JsonMsg => [("json", Twstring)]
  | SpeechStartDetectedMsg => [("offset", Tuint64)]
  | SpeechEndDetectedMsg => [("offset", Tuint64)]
  | TurnStartMsg => [("contextServiceTag", Tstring)]
  | TurnEndMsg => []
  | SpeechMsg => [("offset", Tuint64); ("duration", Tuint64)]
  | SpeechHypothesisMsg => [("text", Twstring)]
  | SpeechFragmentMsg => [("text", Twstring)]
  | SpeechPhraseMsg =>
      [("recognitionStatus", TRecognitionStatus); ("displayText", Twstring)]
  | TranslationResult =>
      [("translationStatus", TTranslationStatus);
       ("failureReason", Twstring);
       ("translations", Tmap_wstring_wstring)]
  | TranslationHypothesisMsg => [("translation", TTranslationResult)]
  | TranslationPhraseMsg => [("recognitionStatus", TRecognitionStatus)]
  | AudioOutputChunkMsg =>
      [("streamId", Tint); ("audioBuffer", Tconst_uint8_ptr);
       ("audioLength", Tsize_t)]
  | UserMsg =>
      [("path", Tstring); ("contentType", Tstring);
       ("buffer", Tconst_uint8_ptr); ("size", Tsize_t)]
  end.

(** The chain of base classes of a struct, nearest first.  The header has
    fourteen structs, so a chain has fewer than fourteen links. *)
Fixpoint bases_upto (fuel : nat) (s : Struct) : list Struct :=
  match fuel with
  | O => []
  | S fuel' =>
      match direct_base s with
      | None => []
      | Some b => b :: bases_upto fuel' b
      end
  end.

Definition bases (s : Struct) : list Struct := bases_upto 14 s.

Definition derives_from (s b : Struct) : bool := bool_decide (b ∈ bases s).

(** Own and inherited members. *)
Definition all_fields (s : Struct) : list (string * CType) :=
  own_fields s ++ flat_map own_fields (bases s).

Definition has_field (s : Struct) (f : string) : bool :=
  bool_decide (f ∈ map fst (all_fields s)).
End Decl.

(** ** The error classes *)

Module ErrorClass.
Inductive t : Set :=
| Transient
| Permanent.

(** Modelled from the spec: the error classifier is not part of the header;
    section 4.4 lists the members of its two classes by name. *)
Definition Transient_names : list string :=
  ["ConnectionError"; "ServiceUnavailable"; "TooManyRequests"].

(** Modelled from the spec: the Permanent class of section 4.4. *)
Definition Permanent_names : list string :=
  ["AuthenticationError"; "BadRequest"; "Forbidden"; "RuntimeError";
   "ServiceError"; "InvalidMessage"].

(** Modelled from the spec: the class a name is listed in. *)
Definition classify_name (n : string) : option t :=
  if bool_decide (n ∈ Transient_names) then Some Transient
  else if bool_decide (n ∈ Permanent_names) then Some Permanent
  else None.

(** Modelled from the spec: the class of an error code of the header, by
    the identifier of its enumerator. *)
Definition classify (e : ErrorCode.t) : option t :=
  classify_name (ErrorCode.name e).
End ErrorClass.

(** ** Stated properties and sample values *)

(** The data invariant the message model is said to keep, in the spec's
    words: "mapping non-empty only when status = Success". *)
Definition mapping_only_on_Success (r : TranslationResult.t) : Prop :=
  TranslationResult.translations r ≠ ∅ ->
  TranslationResult.translationStatus r = TranslationStatus.Success.

(** A result left at status [Error] to which a German text is added. *)
Definition error_result_with_text : TranslationResult.t :=
  TranslationResult.add_translation TranslationResult.default
    (L "de") (L "Hallo").

(** The final translation message built from it, with status [Error]. *)
Definition error_phrase_with_text : TranslationPhraseMsg.t :=
  TranslationPhraseMsg.ctor (L "{}") 100 20 (L "Hello")
    error_result_with_text RecognitionStatus.Error.

(** The same mapping in a result whose status is [Success]. *)
Definition success_result_with_text : TranslationResult.t :=
  TranslationResult.set_translationStatus error_result_with_text
    TranslationStatus.Success.

(** The Permanent class without the name that is no error code. *)
Definition Permanent_error_codes : list string :=
  ["AuthenticationError"; "BadRequest"; "Forbidden"; "RuntimeError";
   "ServiceError"].

(** The structs of the text-bodied and of the binary-bodied messages. *)
Definition text_bodied : list Decl.Struct :=
  [Decl.TurnStartMsg; Decl.TurnEndMsg; Decl.SpeechStartDetectedMsg;
   Decl.SpeechEndDetectedMsg; Decl.SpeechHypothesisMsg;
   Decl.SpeechFragmentMsg; Decl.SpeechPhraseMsg;
   Decl.TranslationHypothesisMsg; Decl.TranslationPhraseMsg].

Definition binary_bodied : list Decl.Struct :=
  [Decl.AudioOutputChunkMsg; Decl.UserMsg].

(** * Properties *)

(** ** Helper lemmas *)

(** Membership of a given name in a given list of names, and its negation. *)
Ltac name_listed :=
  rewrite ?elem_of_app, ?elem_of_cons; tauto.

Ltac name_not_listed :=
  rewrite ?not_elem_of_cons; repeat split;
  first [discriminate | apply not_elem_of_nil].

Lemma to_uint64_range (z : Z) : is_uint64 (to_uint64 z).
Proof.
  unfold is_uint64, to_uint64, uint64_modulus.
  apply Z.mod_pos_bound. lia.
Qed.

Lemma to_uint64_small (z : Z) : is_uint64 z -> to_uint64 z = z.
Proof.
  unfold is_uint64, to_uint64. intros Hz. now apply Z.mod_small.
Qed.

Lemma TranslationResult_copy_id (r : TranslationResult.t) :
  TranslationResult.copy r = r.
Proof. now destruct r. Qed.

Lemma TranslationHypothesisMsg_translation_ctor
    (content : wstring) (o d : Z) (text : wstring)
    (r : TranslationResult.t) :
  TranslationHypothesisMsg.translation
    (TranslationHypothesisMsg.ctor content o d text r) = r.
Proof. cbn. apply TranslationResult_copy_id. Qed.

Lemma TranslationPhraseMsg_translation_ctor
    (content : wstring) (o d : Z) (text : wstring)
    (r : TranslationResult.t) (s : RecognitionStatus.t) :
  TranslationPhraseMsg.translation
    (TranslationPhraseMsg.ctor content o d text r s) = r.
Proof.
  unfold TranslationPhraseMsg.translation, TranslationPhraseMsg.ctor. cbn.
  apply TranslationResult_copy_id.
Qed.

Lemma default_result_has_no_translation :
  mapping_only_on_Success TranslationResult.default.
Proof. intros Hne. now contradict Hne. Qed.

Lemma error_result_with_text_nonempty :
  TranslationResult.translations error_result_with_text ≠ ∅.
Proof. cbn. apply insert_non_empty. Qed.

(** ** C1: translations only with status Success *)

(** C1, as stated, fails: the header keeps no such invariant.  The result
    [error_result_with_text] has status [Error] and a non-empty mapping, and
    the constructor of [TranslationPhraseMsg] accepts it with recognition
    status [Error] and embeds it unchanged. *)
Lemma error_phrase_exposes_translations :
  ~ mapping_only_on_Success error_result_with_text /\
  TranslationPhraseMsg.recognitionStatus error_phrase_with_text
    = RecognitionStatus.Error /\
  TranslationResult.translationStatus
    (TranslationPhraseMsg.translation error_phrase_with_text)
    = TranslationStatus.Error /\
  TranslationResult.translations
    (TranslationPhraseMsg.translation error_phrase_with_text) ≠ ∅ /\
  ~ mapping_only_on_Success
      (TranslationPhraseMsg.translation error_phrase_with_text).
Proof.
  assert (Hbad : ~ mapping_only_on_Success error_result_with_text).
  { intros Hinv. specialize (Hinv error_result_with_text_nonempty).
    discriminate Hinv. }
  unfold error_phrase_with_text.
  rewrite TranslationPhraseMsg_translation_ctor.
  repeat split; auto using error_result_with_text_nonempty.
Qed.

(** C1, amended: the constructors of [TranslationHypothesisMsg] and
    [TranslationPhraseMsg] embed the supplied result unchanged, so a result
    whose mapping is non-empty only with status [Success] stays so inside
    the message, whatever the other arguments; and the default-constructed
    result, with status [Error] and an empty mapping, is such a result. *)
Theorem translation_ctor_keeps_invariant
    (r : TranslationResult.t) (Hr : mapping_only_on_Success r)
    (content : wstring) (o d : Z) (text : wstring)
    (s : RecognitionStatus.t) :
  TranslationHypothesisMsg.translation
    (TranslationHypothesisMsg.ctor content o d text r) = r /\
  TranslationPhraseMsg.translation
    (TranslationPhraseMsg.ctor content o d text r s) = r /\
  mapping_only_on_Success
    (TranslationHypothesisMsg.translation
       (TranslationHypothesisMsg.ctor content o d text r)) /\
  mapping_only_on_Success
    (TranslationPhraseMsg.translation
       (TranslationPhraseMsg.ctor content o d text r s)) /\
  mapping_only_on_Success TranslationResult.default /\
  TranslationResult.translationStatus TranslationResult.default
    = TranslationStatus.Error /\
  TranslationResult.translations TranslationResult.default = ∅.
Proof.
  rewrite TranslationHypothesisMsg_translation_ctor.
  rewrite TranslationPhraseMsg_translation_ctor.
  repeat split; auto using default_result_has_no_translation.
Qed.

Lemma translation_ctor_keeps_invariant_witness :
  mapping_only_on_Success success_result_with_text /\
  TranslationPhraseMsg.translation
    (TranslationPhraseMsg.ctor (L "{}") 100 20 (L "Hello")
       success_result_with_text RecognitionStatus.Success)
    = success_result_with_text.
Proof.
  assert (Hr : mapping_only_on_Success success_result_with_text).
  { intros _. reflexivity. }
  split; [exact Hr |].
  exact (proj1 (proj2 (translation_ctor_keeps_invariant
                         success_result_with_text Hr (L "{}") 100 20
                         (L "Hello") RecognitionStatus.Success))).
Defined.

(** ** C2: the status of a translation phrase defaults to Error *)

(** C2: a [TranslationPhraseMsg] always carries the recognition status given
    to its constructor, unchanged; and a translation result whose status
    member is left at its default, whatever is assigned to its other
    members, has status [Error], not [Success], also once embedded in the
    phrase. *)
Theorem TranslationPhrase_status_defaults_to_Error
    (content : wstring) (o d : Z) (text reason : wstring)
    (m : gmap wstring wstring) (s : RecognitionStatus.t) :
  let r := TranslationResult.set_translations
             (TranslationResult.set_failureReason
                TranslationResult.default reason) m in
  let p := TranslationPhraseMsg.ctor content o d text r s in
  TranslationResult.translationStatus TranslationResult.default
    = TranslationStatus.Error /\
  TranslationResult.translationStatus r = TranslationStatus.Error /\
  TranslationResult.translationStatus (TranslationPhraseMsg.translation p)
    = TranslationStatus.Error /\
  TranslationResult.translationStatus (TranslationPhraseMsg.translation p)
    <> TranslationStatus.Success /\
  TranslationPhraseMsg.recognitionStatus p = s.
Proof.
  intros r p. unfold p.
  rewrite TranslationPhraseMsg_translation_ctor.
  repeat split; try reflexivity. discriminate.
Qed.

(** ** C3: the two error classes and the ErrorCode enumeration *)

(** C3, as stated, fails: the Permanent class lists [InvalidMessage], which
    is no enumerator of [ErrorCode]. *)
Lemma InvalidMessage_is_no_ErrorCode :
  ~ (forall n : string,
       n ∈ ErrorClass.Transient_names ++ ErrorClass.Permanent_names ->
       exists e : ErrorCode.t, ErrorCode.name e = n).
Proof.
  intros Hall.
  destruct (Hall "InvalidMessage") as [e He].
  - unfold ErrorClass.Transient_names, ErrorClass.Permanent_names.
    name_listed.
  - destruct e; discriminate He.
Qed.

(** C3, amended: every value of [ErrorCode] is in exactly one of the two
    classes; the classes share no name; every listed name other than
    [InvalidMessage] is an enumerator of [ErrorCode]; and [InvalidMessage]
    is none, it is an enumerator of [RecognitionStatus] and of
    [TranslationStatus]. *)
Theorem ErrorCode_classes_partition :
  (forall e : ErrorCode.t,
     ((ErrorCode.name e ∈ ErrorClass.Transient_names) /\
      (ErrorCode.name e ∉ Permanent_error_codes) /\
      ErrorClass.classify e = Some ErrorClass.Transient) \/
     ((ErrorCode.name e ∈ Permanent_error_codes) /\
      (ErrorCode.name e ∉ ErrorClass.Transient_names) /\
      ErrorClass.classify e = Some ErrorClass.Permanent)) /\
  Forall (fun n => n ∉ ErrorClass.Permanent_names)
    ErrorClass.Transient_names /\
  Forall (fun n => exists e, ErrorCode.of_name n = Some e /\
                             ErrorCode.name e = n)
    (ErrorClass.Transient_names ++ Permanent_error_codes) /\
  ErrorClass.Permanent_names = Permanent_error_codes ++ ["InvalidMessage"] /\
  ErrorCode.of_name "InvalidMessage" = None /\
  RecognitionStatus.name RecognitionStatus.InvalidMessage
    = "InvalidMessage" /\
  TranslationStatus.name TranslationStatus.InvalidMessage
    = "InvalidMessage" /\
  map ErrorCode.to_int ErrorCode.all = [1; 2; 3; 4; 5; 6; 7; 8]%Z.
Proof.
  split; [| split; [| split]].
  - unfold ErrorClass.Transient_names, Permanent_error_codes.
    intros e. destruct e; cbn [ErrorCode.name];
      first [ left; split; [name_listed | split];
              [name_not_listed | reflexivity]
            | right; split; [name_listed | split];
              [name_not_listed | reflexivity] ].
  - unfold ErrorClass.Transient_names, ErrorClass.Permanent_names.
    repeat constructor; name_not_listed.
  - unfold ErrorClass.Transient_names, Permanent_error_codes. cbn [app].
    repeat constructor; eexists; split; reflexivity.
  - repeat split; reflexivity.
Qed.

(** ** C4: a successful phrase with empty display text *)

(** C4: for every content, offset and duration, the constructor of
    [SpeechPhraseMsg] given status [Success] and an empty text yields a
    message (it has no check that could reject one) whose status is
    [Success] and whose display text is empty; content, offset and duration
    are stored. *)
Theorem SpeechPhraseMsg_Success_with_empty_text
    (content : wstring) (o d : Z) :
  exists m : SpeechPhraseMsg.t,
    SpeechPhraseMsg.ctor content o d RecognitionStatus.Success [] = m /\
    SpeechPhraseMsg.recognitionStatus m = RecognitionStatus.Success /\
    SpeechPhraseMsg.displayText m = [] /\
    json_of m = content /\
    SpeechPhraseMsg.offset m = to_uint64 o /\
    SpeechPhraseMsg.duration m = to_uint64 d.
Proof.
  eexists. split; [reflexivity |]. repeat split.
Qed.

(** ** C5: the phrase's own status *)

(** C5: the constructor of [TranslationPhraseMsg] stores its status argument
    in the phrase's own member [recognitionStatus], a member the struct
    declares itself next to the inherited [translation]; the stored value is
    the argument whatever the translation payload and its status are, and
    the payload's status is left as supplied. *)
Theorem TranslationPhraseMsg_own_status
    (content : wstring) (o d : Z) (text : wstring)
    (r r' : TranslationResult.t) (s : RecognitionStatus.t) :
  TranslationPhraseMsg.recognitionStatus
    (TranslationPhraseMsg.ctor content o d text r s) = s /\
  TranslationPhraseMsg.recognitionStatus
    (TranslationPhraseMsg.ctor content o d text r s)
  = TranslationPhraseMsg.recognitionStatus
      (TranslationPhraseMsg.ctor content o d text r' s) /\
  TranslationResult.translationStatus
    (TranslationPhraseMsg.translation
       (TranslationPhraseMsg.ctor content o d text r s))
  = TranslationResult.translationStatus r /\
  Decl.own_fields Decl.TranslationPhraseMsg
  = [("recognitionStatus", Decl.TRecognitionStatus)] /\
  Decl.direct_base Decl.TranslationPhraseMsg
  = Some Decl.TranslationHypothesisMsg /\
  Decl.own_fields Decl.TranslationHypothesisMsg
  = [("translation", Decl.TTranslationResult)].
Proof.
  rewrite TranslationPhraseMsg_translation_ctor. repeat split.
Qed.

(** ** C7: offsets and durations are 64-bit unsigned *)

(** C7: the members [offset] and [duration] are declared with the 64-bit
    unsigned type, and the duration and the offset of every constructed
    [SpeechHypothesisMsg] and [SpeechFragmentMsg] are at least 0 and below
    2^64, whatever integers the constructor is called with. *)
Theorem speech_duration_is_uint64
    (content : wstring) (o d : Z) (text : wstring) :
  let h := SpeechHypothesisMsg.ctor content o d text in
  let f := SpeechFragmentMsg.ctor content o d text in
  uint64_modulus = 18446744073709551616 /\
  Decl.own_fields Decl.SpeechMsg
  = [("offset", Decl.Tuint64); ("duration", Decl.Tuint64)] /\
  0 <= SpeechHypothesisMsg.duration h /\
  is_uint64 (SpeechHypothesisMsg.duration h) /\
  is_uint64 (SpeechHypothesisMsg.offset h) /\
  0 <= SpeechFragmentMsg.duration f /\
  is_uint64 (SpeechFragmentMsg.duration f) /\
  is_uint64 (SpeechFragmentMsg.offset f).
Proof.
  intros h f. pose proof (to_uint64_range d) as Hd.
  pose proof (to_uint64_range o) as Ho.
  repeat split; first [reflexivity | apply Hd | apply Ho].
Qed.

(** ** C8: the body of a turn.end message *)

(** C8: every constructed [TurnEndMsg], by its constructor or by copying
    one, has an empty [json]. *)
Theorem TurnEndMsg_json_empty (m : TurnEndMsg.t) :
  TurnEndMsg.constructed m -> json_of m = [].
Proof.
  intros Hm. induction Hm as [| m Hm IH].
  - reflexivity.
  - destruct m as [[j]]. exact IH.
Qed.

Lemma TurnEndMsg_json_empty_witness :
  TurnEndMsg.constructed (TurnEndMsg.copy TurnEndMsg.ctor) /\
  json_of (TurnEndMsg.copy TurnEndMsg.ctor) = [].
Proof.
  assert (Hc : TurnEndMsg.constructed (TurnEndMsg.copy TurnEndMsg.ctor)).
  { apply TurnEndMsg.constructed_copy, TurnEndMsg.constructed_ctor. }
  split; [exact Hc | exact (TurnEndMsg_json_empty _ Hc)].
Defined.

(** ** C10: the default speech phrase *)

(** C10: a default-constructed [SpeechPhraseMsg] has status [Error], which
    is not [Success], and an empty display text; and it still has status
    [Error] after any assignment to its other members. *)
Theorem SpeechPhraseMsg_default_is_Error
    (content : wstring) (o d : Z) (text : wstring) :
  SpeechPhraseMsg.recognitionStatus SpeechPhraseMsg.default
    = RecognitionStatus.Error /\
  SpeechPhraseMsg.recognitionStatus SpeechPhraseMsg.default
    <> RecognitionStatus.Success /\
  SpeechPhraseMsg.displayText SpeechPhraseMsg.default = [] /\
  SpeechPhraseMsg.recognitionStatus
    (SpeechPhraseMsg.set_displayText
       (SpeechPhraseMsg.set_duration
          (SpeechPhraseMsg.set_offset
             (SpeechPhraseMsg.set_json SpeechPhraseMsg.default content) o)
          d)
       text)
    = RecognitionStatus.Error.
Proof.
  repeat split. discriminate.
Qed.

(** ** C6: the text payload of the messages *)

(** C6: each struct of a text-bodied message derives from [JsonMsg] and so
    has the member [json]; its constructor stores the content it is given
    there (the constructor of [TurnEndMsg] takes no content and stores the
    empty text).  The structs of the binary-bodied messages do not derive
    from [JsonMsg] and have neither a member [json] nor any member of a wide
    string type. *)
Theorem text_bodied_carry_json_binary_do_not :
  (forall content tag, json_of (TurnStartMsg.ctor content tag) = content) /\
  json_of TurnEndMsg.ctor = [] /\
  (forall content o,
     json_of (SpeechStartDetectedMsg.ctor content o) = content) /\
  (forall content o,
     json_of (SpeechEndDetectedMsg.ctor content o) = content) /\
  (forall content o d text,
     json_of (SpeechHypothesisMsg.ctor content o d text) = content) /\
  (forall content o d text,
     json_of (SpeechFragmentMsg.ctor content o d text) = content) /\
  (forall content o d s text,
     json_of (SpeechPhraseMsg.ctor content o d s text) = content) /\
  (forall content o d text r,
     json_of (TranslationHypothesisMsg.ctor content o d text r) = content) /\
  (forall content o d text r s,
     json_of (TranslationPhraseMsg.ctor content o d text r s) = content) /\
  Forall (fun s => Decl.derives_from s Decl.JsonMsg = true /\
                   Decl.has_field s "json" = true /\
                   ("json", Decl.Twstring) ∈ Decl.all_fields s)
    text_bodied /\
  Forall (fun s => Decl.derives_from s Decl.JsonMsg = false /\
                   Decl.bases s = [] /\
                   Decl.has_field s "json" = false /\
                   Forall (fun f => f.2 ≠ Decl.Twstring) (Decl.all_fields s))
    binary_bodied.
Proof.
  repeat match goal with |- _ /\ _ => split end;
    try (intros; reflexivity).
  - unfold text_bodied.
    repeat constructor; cbn; name_listed.
  - unfold binary_bodied.
    repeat constructor; discriminate.
Qed.

(** ** Sample evaluations *)

Example to_uint64_wraps : to_uint64 (-1) = 18446744073709551615.
Proof. reflexivity. Qed.

Example hypothesis_duration_wraps :
  SpeechHypothesisMsg.duration
    (SpeechHypothesisMsg.ctor (L "{}") 0 (uint64_modulus + 7) (L "a")) = 7.
Proof. reflexivity. Qed.

Example error_phrase_lookup :
  TranslationResult.translations
    (TranslationPhraseMsg.translation error_phrase_with_text) !! L "de"
  = Some (L "Hallo").
Proof. reflexivity. Qed.

Example bases_of_TranslationPhraseMsg :
  Decl.bases Decl.TranslationPhraseMsg
  = [Decl.TranslationHypothesisMsg; Decl.SpeechHypothesisMsg;
     Decl.SpeechMsg; Decl.JsonMsg].
Proof. reflexivity. Qed.

Example classify_Forbidden :
  ErrorClass.classify ErrorCode.Forbidden = Some ErrorClass.Permanent.
Proof. reflexivity. Qed.

Example classify_TooManyRequests :
  ErrorClass.classify ErrorCode.TooManyRequests = Some ErrorClass.Transient.
Proof. reflexivity. Qed.

(** * Further properties of the header *)

(** ** Offsets and durations *)

(** An offset and a duration that are 64-bit unsigned values are stored
    as they are, by every constructor that takes them. *)
Theorem ticks_in_range_are_stored
    (content : wstring) (o d : Z) (text : wstring)
    (s : RecognitionStatus.t) (r : TranslationResult.t)
    (Ho : is_uint64 o) (Hd : is_uint64 d) :
  SpeechStartDetectedMsg.offset (SpeechStartDetectedMsg.ctor content o) = o /\
  SpeechEndDetectedMsg.offset (SpeechEndDetectedMsg.ctor content o) = o /\
  SpeechMsg.offset (SpeechMsg.ctor content o d) = o /\
  SpeechMsg.duration (SpeechMsg.ctor content o d) = d /\
  SpeechHypothesisMsg.offset (SpeechHypothesisMsg.ctor content o d text) = o /\
  SpeechHypothesisMsg.duration
    (SpeechHypothesisMsg.ctor content o d text) = d /\
  SpeechFragmentMsg.offset (SpeechFragmentMsg.ctor content o d text) = o /\
  SpeechFragmentMsg.duration (SpeechFragmentMsg.ctor content o d text) = d /\
  SpeechPhraseMsg.offset (SpeechPhraseMsg.ctor content o d s text) = o /\
  SpeechPhraseMsg.duration (SpeechPhraseMsg.ctor content o d s text) = d /\
  TranslationPhraseMsg.offset
    (TranslationPhraseMsg.ctor content o d text r s) = o /\
  TranslationPhraseMsg.duration
    (TranslationPhraseMsg.ctor content o d text r s) = d.
Proof.
  pose proof (to_uint64_small o Ho) as Eo.
  pose proof (to_uint64_small d Hd) as Ed.
  repeat match goal with |- _ /\ _ => split end;
    first [exact Eo | exact Ed].
Qed.

Lemma ticks_in_range_are_stored_witness :
  is_uint64 100 /\ is_uint64 20 /\
  TranslationPhraseMsg.duration
    (TranslationPhraseMsg.ctor (L "{}") 100 20 (L "Hello")
       TranslationResult.default RecognitionStatus.Success) = 20.
Proof.
  assert (Ho : is_uint64 100) by (unfold is_uint64, uint64_modulus; lia).
  assert (Hd : is_uint64 20) by (unfold is_uint64, uint64_modulus; lia).
  split; [exact Ho | split; [exact Hd |]].
  apply (ticks_in_range_are_stored (L "{}") 100 20 (L "Hello")
           RecognitionStatus.Success TranslationResult.default Ho Hd).
Defined.

(** Two final translation messages built by the constructor are equal
    exactly when content, text, translation result and status are equal
    and the offsets, and the durations, agree modulo 2^64. *)
Theorem TranslationPhraseMsg_ctor_eq
    (content content' : wstring) (o o' d d' : Z) (text text' : wstring)
    (r r' : TranslationResult.t) (s s' : RecognitionStatus.t) :
  TranslationPhraseMsg.ctor content o d text r s
  = TranslationPhraseMsg.ctor content' o' d' text' r' s'
  <-> content = content' /\ to_uint64 o = to_uint64 o' /\
      to_uint64 d = to_uint64 d' /\ text = text' /\ r = r' /\ s = s'.
Proof.
  unfold TranslationPhraseMsg.ctor, TranslationHypothesisMsg.ctor,
    SpeechHypothesisMsg.ctor, SpeechMsg.ctor, JsonMsg.ctor.
  rewrite !TranslationResult_copy_id. split.
  - intros H. injection H as Hc Ho Hd Ht Hr Hs. tauto.
  - intros (-> & -> & -> & -> & -> & ->). reflexivity.
Qed.

(** ** Enumerations *)

Lemma find_bool_decide_Some {A B : Type} `{EqDecision B}
    (f : A -> B) (l : list A) (b : B) (a : A) :
  find (fun x => bool_decide (f x = b)) l = Some a -> f a = b.
Proof.
  intros Hf. destruct (List.find_some _ _ Hf) as [_ Hb].
  now apply bool_decide_eq_true in Hb.
Qed.

(** The underlying values identify the enumerators: the value of an
    enumerator leads back to it, a value that names an enumerator is that
    enumerator's value, and the values in use are exactly 0..10 for
    [RecognitionStatus], 0..2 for [TranslationStatus] and 1..8 for
    [ErrorCode], so that 0 names no error code. *)
Theorem enum_values_round_trip :
  (forall s, RecognitionStatus.of_int (RecognitionStatus.to_int s) = Some s) /\
  (forall s, TranslationStatus.of_int (TranslationStatus.to_int s) = Some s) /\
  (forall e, ErrorCode.of_int (ErrorCode.to_int e) = Some e) /\
  (forall z s, RecognitionStatus.of_int z = Some s <->
               RecognitionStatus.to_int s = z) /\
  (forall z s, TranslationStatus.of_int z = Some s <->
               TranslationStatus.to_int s = z) /\
  (forall z e, ErrorCode.of_int z = Some e <-> ErrorCode.to_int e = z) /\
  (forall z, is_Some (RecognitionStatus.of_int z) <-> 0 <= z <= 10) /\
  (forall z, is_Some (TranslationStatus.of_int z) <-> 0 <= z <= 2) /\
  (forall z, is_Some (ErrorCode.of_int z) <-> 1 <= z <= 8).
Proof.
  assert (R1 : forall s,
             RecognitionStatus.of_int (RecognitionStatus.to_int s) = Some s)
    by (intros s; destruct s; reflexivity).
  assert (T1 : forall s,
             TranslationStatus.of_int (TranslationStatus.to_int s) = Some s)
    by (intros s; destruct s; reflexivity).
  assert (E1 : forall e, ErrorCode.of_int (ErrorCode.to_int e) = Some e)
    by (intros e; destruct e; reflexivity).
  assert (R2 : forall z s, RecognitionStatus.of_int z = Some s <->
                           RecognitionStatus.to_int s = z).
  { intros z s. split; [apply find_bool_decide_Some |].
    intros <-. apply R1. }
  assert (T2 : forall z s, TranslationStatus.of_int z = Some s <->
                           TranslationStatus.to_int s = z).
  { intros z s. split; [apply find_bool_decide_Some |].
    intros <-. apply T1. }
  assert (E2 : forall z e, ErrorCode.of_int z = Some e <->
                           ErrorCode.to_int e = z).
  { intros z e. split; [apply find_bool_decide_Some |].
    intros <-. apply E1. }
  repeat match goal with |- _ /\ _ => split end; auto.
  - intros z. split.
    + intros [s Hs]. apply R2 in Hs. destruct s; cbn in Hs; lia.
    + intros Hz.
      assert (Hc : z = 0 \/ z = 1 \/ z = 2 \/ z = 3 \/ z = 4 \/ z = 5 \/
                   z = 6 \/ z = 7 \/ z = 8 \/ z = 9 \/ z = 10) by lia.
      repeat destruct Hc as [-> | Hc]; try subst z; eexists; reflexivity.
  - intros z. split.
    + intros [s Hs]. apply T2 in Hs. destruct s; cbn in Hs; lia.
    + intros Hz.
      assert (Hc : z = 0 \/ z = 1 \/ z = 2) by lia.
      repeat destruct Hc as [-> | Hc]; try subst z; eexists; reflexivity.
  - intros z. split.
    + intros [e He]. apply E2 in He. destruct e; cbn in He; lia.
    + intros Hz.
      assert (Hc : z = 1 \/ z = 2 \/ z = 3 \/ z = 4 \/ z = 5 \/ z = 6 \/
                   z = 7 \/ z = 8) by lia.
      repeat destruct Hc as [-> | Hc]; try subst z; eexists; reflexivity.
Qed.

(** An enumerator of [RecognitionStatus] and one of [ErrorCode] with the
    same identifier ([TooManyRequests], [BadRequest], [Forbidden],
    [ServiceUnavailable]) never have the same underlying value: a status
    converted to an error code through its integer changes its meaning. *)
Theorem same_name_status_and_error_differ
    (s : RecognitionStatus.t) (e : ErrorCode.t) :
  RecognitionStatus.name s = ErrorCode.name e ->
  RecognitionStatus.to_int s <> ErrorCode.to_int e /\
  ErrorCode.of_int (RecognitionStatus.to_int s) <> Some e.
Proof.
  intros Hn.
  assert (Hv : RecognitionStatus.to_int s <> ErrorCode.to_int e).
  { destruct s, e; cbn in Hn; try discriminate Hn; cbn; lia. }
  split; [exact Hv |].
  intros Hs. apply find_bool_decide_Some in Hs. congruence.
Qed.

Lemma same_name_status_and_error_differ_witness :
  RecognitionStatus.name RecognitionStatus.TooManyRequests
  = ErrorCode.name ErrorCode.TooManyRequests /\
  RecognitionStatus.to_int RecognitionStatus.TooManyRequests
  <> ErrorCode.to_int ErrorCode.TooManyRequests.
Proof.
  split; [reflexivity |].
  apply (same_name_status_and_error_differ
           RecognitionStatus.TooManyRequests ErrorCode.TooManyRequests).
  reflexivity.
Defined.

(** Every [TranslationStatus] identifier is also a [RecognitionStatus]
    identifier, but of the enumerators with the same identifier only
    [Success] has the same underlying value in both. *)
Theorem same_name_translation_and_recognition
    (t : TranslationStatus.t) (s : RecognitionStatus.t) :
  TranslationStatus.name t = RecognitionStatus.name s ->
  (TranslationStatus.to_int t = RecognitionStatus.to_int s
   <-> t = TranslationStatus.Success) /\
  (exists s', RecognitionStatus.name s' = TranslationStatus.name t).
Proof.
  intros Hn. split.
  - destruct t, s; cbn in Hn; try discriminate Hn; cbn;
      split; intros H; first [reflexivity | discriminate H | lia].
  - exists s. now symmetry.
Qed.

Lemma same_name_translation_and_recognition_witness :
  TranslationStatus.name TranslationStatus.Error
  = RecognitionStatus.name RecognitionStatus.Error /\
  (TranslationStatus.to_int TranslationStatus.Error
   = RecognitionStatus.to_int RecognitionStatus.Error
   <-> TranslationStatus.Error = TranslationStatus.Success).
Proof.
  split; [reflexivity |].
  apply (same_name_translation_and_recognition
           TranslationStatus.Error RecognitionStatus.Error).
  reflexivity.
Defined.

(** ** The inheritance hierarchy *)

(** The hierarchy has no cycle and is shallow and single-rooted: no struct
    derives from itself, a chain of bases has at most four links and ends in
    a struct without a base, and the structs that derive from [JsonMsg] are
    all but [JsonMsg] itself, [TranslationResult], [AudioOutputChunkMsg] and
    [UserMsg], which have no base at all. *)
Theorem hierarchy_is_a_shallow_tree (s : Decl.Struct) :
  Decl.derives_from s s = false /\
  (length (Decl.bases s) <= 4)%nat /\
  match last (Decl.bases s) with
  | Some root => root = Decl.JsonMsg /\ Decl.direct_base root = None
  | None => Decl.direct_base s = None
  end /\
  (Decl.derives_from s Decl.JsonMsg = false <->
   s ∈ [Decl.JsonMsg; Decl.TranslationResult; Decl.AudioOutputChunkMsg;
        Decl.UserMsg]) /\
  (Decl.derives_from s Decl.JsonMsg = false <-> Decl.direct_base s = None).
Proof.
  destruct s;
    (split; [reflexivity |]);
    (split; [cbn; lia |]);
    (split; [cbn; try split; reflexivity |]);
    split; split; intros H;
    first [ reflexivity
          | name_listed
          | vm_compute in H; discriminate H
          | rewrite !elem_of_cons, elem_of_nil in H; intuition discriminate ].
Qed.

(** No struct declares a member under a name that one of its bases already
    uses: the names of the own and inherited members of each struct are
    pairwise distinct.  In particular the [recognitionStatus] of
    [TranslationPhraseMsg] hides no inherited member, and that struct, which
    does not derive from [SpeechPhraseMsg], has no [displayText]. *)
Theorem member_names_are_distinct (s : Decl.Struct) :
  NoDup (map fst (Decl.all_fields s)) /\
  Decl.derives_from Decl.TranslationPhraseMsg Decl.SpeechPhraseMsg = false /\
  Decl.has_field Decl.TranslationPhraseMsg "displayText" = false /\
  Decl.has_field Decl.TranslationPhraseMsg "text" = true.
Proof.
  split; [| repeat split].
  destruct s; cbn; repeat (apply NoDup_cons; split);
    first [apply NoDup_nil; exact I | name_not_listed].
Qed.
